(** * The Twitter API connector (src/actions/tweet/connector/twitterAPI.py)

    A shallow embedding of [TweetAPIConnector]: its constructor, which loads
    the [.env] file, reads four credentials from the process environment and
    builds the vendor client, and its [connect] coroutine, which publishes one
    tweet and logs the outcome.

    Python's ambient state (process environment, warning filters, imported
    modules, the log and the network) is an explicit [World]; exceptions are
    the left summand of the result of a computation. *)

From stdpp Require Import base option strings list gmap pretty.

Local Open Scope string_scope.
Local Open Scope list_scope.

(** ** Python values and exceptions *)

(** The exception classes the connector can meet, with their base class. *)
Inductive ExcClass :=
| BaseException
| KeyboardInterrupt
| CancelledError
| Exception
| ValueError
| TypeError
| NameError
| AttributeError
| RuntimeError
| LookupError
| KeyError
| TweepyException
| HTTPException
| Forbidden
| TooManyRequests.

Global Instance ExcClass_eq_dec : EqDecision ExcClass.
Proof. solve_decision. Defined.

Definition base_class (c : ExcClass) : option ExcClass :=
  match c with
  | BaseException => None
  | KeyboardInterrupt | CancelledError | Exception => Some BaseException
  | ValueError | TypeError | NameError | AttributeError | RuntimeError
  | LookupError | TweepyException => Some Exception
  | KeyError => Some LookupError
  | HTTPException => Some TweepyException
  | Forbidden | TooManyRequests => Some HTTPException
  end.

(** The method resolution order of a class, cut at [depth] bases. *)
Fixpoint mro (depth : nat) (c : ExcClass) : list ExcClass :=
  c :: match depth, base_class c with
       | S d, Some b => mro d b
       | _, _ => []
       end.

Definition issubclass (c d : ExcClass) : bool := bool_decide (d ∈ mro 4 c).

(** An exception instance: its class, what [str(e)] gives, and the exception
    that was being handled when it was raised ([__context__]). *)
#[local] Unset Elimination Schemes.
Inductive PyExc :=
| Exc (cls : ExcClass) (msg : string) (context : option PyExc).

Definition exc_class (e : PyExc) : ExcClass := let 'Exc c _ _ := e in c.
Definition str_exc (e : PyExc) : string := let 'Exc _ m _ := e in m.
Definition exc_context (e : PyExc) : option PyExc := let 'Exc _ _ x := e in x.

Definition isinstance (e : PyExc) (c : ExcClass) : bool :=
  issubclass (exc_class e) c.

Definition set_context (outer : PyExc) (e : PyExc) : PyExc :=
  let 'Exc c m _ := e in Exc c m (Some outer).

(** Values found in the vendor's response. *)
Inductive PyVal :=
| VStr (s : string)
| VInt (z : Z)
| VNone.

(** [format(v)] with an empty format spec, what an f-string field does
    with [v]. *)
Definition format (v : PyVal) : string :=
  match v with
  | VStr s => s
  | VInt z => pretty z
  | VNone => "None"
  end.

(** Objects a name can be bound to, as far as name resolution goes. *)
Inductive PyObj :=
| ObjClass (c : ExcClass)
| ObjModule (name : string) (attrs : list (string * PyObj))
| ObjOpaque.
#[local] Set Elimination Schemes.

Definition Namespace := list (string * PyObj).

Fixpoint ns_lookup (ns : Namespace) (name : string) : option PyObj :=
  match ns with
  | [] => None
  | (k, o) :: ns' => if String.eqb k name then Some o else ns_lookup ns' name
  end.

(** ** The vendor library and the ambient world *)

(** [tweepy.Client]: it keeps the four credentials it was given; each
    keyword argument may be [None]. *)
Record Client := mkClient {
  consumer_key : option string;
  consumer_secret : option string;
  access_token : option string;
  access_token_secret : option string
}.

(** [response.data]: [None] or the decoded JSON object. *)
Inductive PyData :=
| DataNone
| DataDict (d : gmap string PyVal).

Record Response := mkResponse { data : PyData }.

Inductive LogLevel := INFO | ERROR.

(** What the connector does to the outside: log lines and vendor calls. *)
Inductive Event :=
| EvLog (level : LogLevel) (line : string)
| EvCreateTweet (c : Client) (text : string).

(** An entry of [warnings.filters]:
    (action, message, category, module, lineno). *)
Definition WarningFilter : Type :=
  string * option string * string * option string * nat.

Record World := mkWorld {
  environ : gmap string string;               (* os.environ *)
  dotenv_file : gmap string (option string);  (* the parsed .env file *)
  warning_filters : list WarningFilter;       (* warnings.filters *)
  sys_modules : gset string;                  (* sys.modules *)
  network : Client → string → PyExc + Response;
    (* what the vendor answers to create_tweet, for a client and a text *)
  trace : list Event                          (* log lines and network calls *)
}.

Definition set_environ (env : gmap string string) (w : World) : World :=
  mkWorld env (dotenv_file w) (warning_filters w) (sys_modules w)
          (network w) (trace w).

Definition set_warning_filters (fs : list WarningFilter) (w : World) : World :=
  mkWorld (environ w) (dotenv_file w) fs (sys_modules w)
          (network w) (trace w).

Definition set_sys_modules (ms : gset string) (w : World) : World :=
  mkWorld (environ w) (dotenv_file w) (warning_filters w) ms
          (network w) (trace w).

Definition emit (ev : Event) (w : World) : World :=
  mkWorld (environ w) (dotenv_file w) (warning_filters w) (sys_modules w)
          (network w) (trace w ++ [ev]).

(** ** Computations: state passing over the world, with exceptions *)

Definition Py (A : Type) : Type := World → (PyExc + A) * World.

Definition ret {A} (a : A) : Py A := λ w, (inr a, w).
Definition raise {A} (e : PyExc) : Py A := λ w, (inl e, w).
Definition bind {A B} (m : Py A) (k : A → Py B) : Py B :=
  λ w, match m w with
       | (inr a, w') => k a w'
       | (inl e, w') => (inl e, w')
       end.

Notation "'let*' x ':=' m 'in' k" := (bind m (λ x, k))
  (at level 10, x name, m at level 100, k at level 200, only parsing).
Notation "m >> k" := (bind m (λ _, k))
  (at level 100, k at level 200, right associativity, only parsing).

Definition modify (f : World → World) : Py unit := λ w, (inr (), f w).
Definition gets {A} (f : World → A) : Py A := λ w, (inr (f w), w).

(** ** Library calls used by the connector *)

(** [dotenv.load_dotenv()] with its default [override=False]: every key of
    the [.env] file that has a value and is not yet in [os.environ] is added;
    keys already set keep their value. *)
Definition load_dotenv : Py unit :=
  modify (λ w, set_environ (environ w ∪ omap id (dotenv_file w)) w).

(** [os.getenv(name)]: [None] when the variable is not set. *)
Definition os_getenv (name : string) : Py (option string) :=
  gets (λ w, environ w !! name).

Fixpoint remove_first (item : WarningFilter) (l : list WarningFilter)
  : list WarningFilter :=
  match l with
  | [] => []
  | x :: l' => if decide (x = item) then l' else x :: remove_first item l'
  end.

(** [warnings.filterwarnings(action, category=category)]: the entry moves to
    the front of [warnings.filters]. *)
Definition filterwarnings (action category : string) : Py unit :=
  modify (λ w,
    let item : WarningFilter := (action, None, category, None, 0) in
    set_warning_filters (item :: remove_first item (warning_filters w)) w).

(** [with warnings.catch_warnings(): body]: the filters in force on entry are
    put back on exit, whether [body] returns or raises. *)
Definition catch_warnings {A} (body : Py A) : Py A :=
  λ w, let saved := warning_filters w in
       let '(r, w') := body w in
       (r, set_warning_filters saved w').

(** [import name] inside a function: the module lands in [sys.modules] and
    the name is bound in the function's locals only. *)
Definition import_module (name : string) : Py unit :=
  modify (λ w, set_sys_modules ({[name]} ∪ sys_modules w) w).

Definition logging_info (line : string) : Py unit :=
  modify (emit (EvLog INFO line)).

Definition logging_error (line : string) : Py unit :=
  modify (emit (EvLog ERROR line)).

(** [bool(v)] for the result of [os.getenv]. *)
Definition truthy (v : option string) : bool :=
  match v with
  | None => false
  | Some s => negb (String.eqb s EmptyString)
  end.

(** [all(l)]. *)
Definition py_all (l : list (option string)) : bool := forallb truthy l.

(** [sep.join(l)]. *)
Definition join (sep : string) (l : list string) : string :=
  String.concat sep l.

(** ** Name resolution *)

Definition builtins : Namespace :=
  [("BaseException", ObjClass BaseException);
   ("Exception", ObjClass Exception);
   ("ValueError", ObjClass ValueError);
   ("TypeError", ObjClass TypeError);
   ("NameError", ObjClass NameError);
   ("AttributeError", ObjClass AttributeError);
   ("RuntimeError", ObjClass RuntimeError);
   ("LookupError", ObjClass LookupError);
   ("KeyError", ObjClass KeyError);
   ("KeyboardInterrupt", ObjClass KeyboardInterrupt)].

(** The names bound at the top level of [twitterAPI.py]: its five import
    statements and its one class statement. *)
Definition module_globals : Namespace :=
  [("logging", ObjModule "logging" []);
   ("os", ObjModule "os" []);
   ("warnings", ObjModule "warnings" []);
   ("load_dotenv", ObjOpaque);
   ("ActionConfig", ObjOpaque);
   ("ActionConnector", ObjOpaque);
   ("TweetInput", ObjOpaque);
   ("TweetAPIConnector", ObjOpaque)].

(** The [tweepy] module object, as far as the connector looks into it. *)
Definition tweepy_module : PyObj :=
  ObjModule "tweepy"
    [("Client", ObjOpaque);
     ("TweepyException", ObjClass TweepyException);
     ("HTTPException", ObjClass HTTPException);
     ("Forbidden", ObjClass Forbidden);
     ("TooManyRequests", ObjClass TooManyRequests)].

(** A name that is not a local of the running function: module globals,
    then builtins, else [NameError]. *)
Definition load_global (g : Namespace) (name : string) : Py PyObj :=
  match ns_lookup g name with
  | Some o => ret o
  | None =>
      match ns_lookup builtins name with
      | Some o => ret o
      | None =>
          raise (Exc NameError ("name '" +:+ name +:+ "' is not defined") None)
      end
  end.

Definition load_attr (o : PyObj) (attr : string) : Py PyObj :=
  match o with
  | ObjModule m attrs =>
      match ns_lookup attrs attr with
      | Some x => ret x
      | None =>
          raise (Exc AttributeError
                   ("module '" +:+ m +:+ "' has no attribute '" +:+ attr +:+ "'")
                   None)
      end
  | _ =>
      raise (Exc AttributeError ("object has no attribute '" +:+ attr +:+ "'")
               None)
  end.

(** ** [try] / [except] *)

(** An exception raised while [outer] is being handled records it as its
    context. *)
Definition during_handling {A} (outer : PyExc) (m : Py A) : Py A :=
  λ w, match m w with
       | (inl e, w') => (inl (set_context outer e), w')
       | r => r
       end.

(** One [except <expr> as e: <body>] clause.  The body ends in a bare
    [raise], written [raise e] here. *)
Definition Handler : Type := Py PyObj * (PyExc → Py unit).

(** The clauses are tried in order; each clause's expression is evaluated
    only when its turn comes, and an exception raised by that evaluation
    leaves the whole statement. *)
Fixpoint dispatch (e : PyExc) (hs : list Handler) : Py unit :=
  match hs with
  | [] => raise e
  | (cls_expr, body) :: hs' =>
      let* o := during_handling e cls_expr in
      match o with
      | ObjClass c => if isinstance e c then body e else dispatch e hs'
      | _ =>
          raise (Exc TypeError
                   "catching classes that do not inherit from BaseException is not allowed"
                   (Some e))
      end
  end.

Definition try_except (body : Py unit) (hs : list Handler) : Py unit :=
  λ w, match body w with
       | (inl e, w') => dispatch e hs w'
       | r => r
       end.

(** ** The connector *)

(** [TweetInput], from [actions.tweet.interface]: the text to publish is its
    [action] field. *)
Record TweetInput := mkTweetInput { action : string }.

Section Connector.

(** [ActionConfig], from [actions.base], is kept abstract. *)
Variable ActionConfig : Type.

(** [repr] of a [str]. *)
Variable repr_str : string → string.

(** The instance: [self.config], set by [ActionConnector.__init__], and
    [self.client]. *)
Record TweetAPIConnector := mkConnector {
  config : ActionConfig;
  client : Client
}.

(** [repr] of a [dict] with [str] keys and values. *)
Definition repr_dict (d : list (string * string)) : string :=
  "{" +:+ join ", " (map (λ kv, repr_str kv.1 +:+ ": " +:+ repr_str kv.2) d)
      +:+ "}".

(** [self.client.create_tweet(text=text)]: one request on the network. *)
Definition create_tweet (c : Client) (text : string) : Py Response :=
  λ w, (network w c text, emit (EvCreateTweet c text) w).

(** [d[key]] on [response.data]. *)
Definition getitem (d : PyData) (key : string) : Py PyVal :=
  match d with
  | DataNone =>
      raise (Exc TypeError "'NoneType' object is not subscriptable" None)
  | DataDict m =>
      match m !! key with
      | Some v => ret v
      | None => raise (Exc KeyError (repr_str key) None)
      end
  end.

Definition __init__ (config : ActionConfig) : Py TweetAPIConnector :=
  (* super().__init__(config) stores the configuration *)
  load_dotenv >>
  catch_warnings (
    filterwarnings "ignore" "SyntaxWarning" >>
    import_module "tweepy" >>
    let* consumer_key := os_getenv "TWITTER_API_KEY" in
    let* consumer_secret := os_getenv "TWITTER_API_SECRET" in
    let* access_token := os_getenv "TWITTER_ACCESS_TOKEN" in
    let* access_token_secret := os_getenv "TWITTER_ACCESS_TOKEN_SECRET" in
    if negb (py_all [consumer_key; consumer_secret;
                     access_token; access_token_secret])
    then
      let missing_vars := [] in
      let missing_vars :=
        if negb (truthy consumer_key)
        then missing_vars ++ ["TWITTER_API_KEY"] else missing_vars in
      let missing_vars :=
        if negb (truthy consumer_secret)
        then missing_vars ++ ["TWITTER_API_SECRET"] else missing_vars in
      let missing_vars :=
        if negb (truthy access_token)
        then missing_vars ++ ["TWITTER_ACCESS_TOKEN"] else missing_vars in
      let missing_vars :=
        if negb (truthy access_token_secret)
        then missing_vars ++ ["TWITTER_ACCESS_TOKEN_SECRET"]
        else missing_vars in
      raise (Exc ValueError
               ("Missing required Twitter API credentials: "
                  +:+ join ", " missing_vars)
               None)
    else
      ret (mkConnector config
             (mkClient consumer_key consumer_secret
                       access_token access_token_secret))).

(** The body of the [try] statement of [connect]. *)
Definition connect_try (self : TweetAPIConnector) (output_interface : TweetInput)
  : Py unit :=
  let tweet_to_make := [("action", action output_interface)] in
  logging_info ("SendThisToTwitterAPI: " +:+ repr_dict tweet_to_make) >>
  let* response := create_tweet (client self) (action output_interface) in
  let* tweet_id := getitem (data response) "id" in
  let tweet_url := "https://twitter.com/user/status/" +:+ format tweet_id in
  logging_info ("Tweet sent successfully! URL: " +:+ tweet_url).

(** The two [except] clauses of [connect].  [tweepy] and [Exception] are
    not locals of [connect]: they are looked up in the namespace [g]. *)
Definition connect_handlers (g : Namespace) : list Handler :=
  [ (let* m := load_global g "tweepy" in load_attr m "TweepyException",
     λ e, logging_error ("Twitter API error while sending tweet: "
                           +:+ str_exc e) >>
          raise e);
    (load_global g "Exception",
     λ e, logging_error ("Unexpected error while sending tweet: "
                           +:+ str_exc e) >>
          raise e) ].

(** [connect], run with [g] as the globals of its module. *)
Definition connect_in (g : Namespace) (self : TweetAPIConnector)
    (output_interface : TweetInput) : Py unit :=
  try_except (connect_try self output_interface) (connect_handlers g).

(** [connect] as the file has it: [tweepy] is imported inside [__init__]
    only, so the globals are [module_globals]. *)
Definition connect : TweetAPIConnector → TweetInput → Py unit :=
  connect_in module_globals.

End Connector.

Arguments mkConnector {ActionConfig} _ _.
Arguments config {ActionConfig} _.
Arguments client {ActionConfig} _.
Arguments __init__ {ActionConfig} _.
Arguments connect_try {ActionConfig} _ _ _.
Arguments connect_in {ActionConfig} _ _ _ _.
Arguments connect {ActionConfig} _ _ _.

(** ** Observations on worlds and traces *)

(** [os.environ] as [os.getenv] finds it in the constructor, once
    [load_dotenv] has run. *)
Definition effective_environ (w : World) : gmap string string :=
  environ w ∪ omap id (dotenv_file w).

(** The four variables the constructor reads, in the order it reads them. *)
Definition required_vars : list string :=
  ["TWITTER_API_KEY"; "TWITTER_API_SECRET";
   "TWITTER_ACCESS_TOKEN"; "TWITTER_ACCESS_TOKEN_SECRET"].

(** The world the constructor leaves behind. *)
Definition world_after_init (w : World) : World :=
  mkWorld (effective_environ w) (dotenv_file w) (warning_filters w)
          ({["tweepy"]} ∪ sys_modules w) (network w) (trace w).

Definition log_lines (t : list Event) : list (LogLevel * string) :=
  omap (λ ev, match ev with EvLog l s => Some (l, s) | _ => None end) t.

Definition vendor_calls (t : list Event) : list (Client * string) :=
  omap (λ ev, match ev with EvCreateTweet c s => Some (c, s) | _ => None end) t.

Definition error_lines (t : list Event) : list string :=
  omap (λ ev, match ev with EvLog ERROR s => Some s | _ => None end) t.

(** The exception a computation ended with, if any. *)
Definition raised {A} (r : (PyExc + A) * World) : option PyExc :=
  match r.1 with inl e => Some e | inr _ => None end.

(** [repr] of a [str] without quote, backslash or control character. *)
Definition repr_plain (s : string) : string := "'" +:+ s +:+ "'".

(** The names the error message lists, for a given reading of the four
    variables. *)
Definition missing_names (env : gmap string string) : list string :=
  List.filter (λ n, negb (truthy (env !! n))) required_vars.

Definition missing_message (names : list string) : string :=
  "Missing required Twitter API credentials: " +:+ join ", " names.

(** The client holds four non-empty credentials. *)
Definition client_complete (c : Client) : bool :=
  py_all [consumer_key c; consumer_secret c;
          access_token c; access_token_secret c].

(** The client the constructor builds from a reading of the environment. *)
Definition client_of_environ (env : gmap string string) : Client :=
  mkClient (env !! "TWITTER_API_KEY") (env !! "TWITTER_API_SECRET")
           (env !! "TWITTER_ACCESS_TOKEN")
           (env !! "TWITTER_ACCESS_TOKEN_SECRET").

(** The globals [twitterAPI.py] would have if [import tweepy] stood at the
    top of the file instead of inside [__init__]. *)
Definition globals_with_tweepy : Namespace :=
  ("tweepy", tweepy_module) :: module_globals.

(** The two log lines [connect] can write before and after the vendor call. *)
Definition sending_line (repr_str : string → string) (oi : TweetInput)
  : string :=
  "SendThisToTwitterAPI: " +:+ repr_dict repr_str [("action", action oi)].

Definition success_line (tweet_id : PyVal) : string :=
  "Tweet sent successfully! URL: https://twitter.com/user/status/"
    +:+ format tweet_id.

(** What evaluating [tweepy.TweepyException] raises inside [connect]. *)
Definition tweepy_name_error (during : PyExc) : PyExc :=
  Exc NameError "name 'tweepy' is not defined" (Some during).

(** The world right after [connect] has called the vendor. *)
Definition world_at_call {ActionConfig : Type} (repr_str : string → string)
    (self : TweetAPIConnector ActionConfig) (oi : TweetInput) (w : World)
  : World :=
  emit (EvCreateTweet (client self) (action oi))
       (emit (EvLog INFO (sending_line repr_str oi)) w).

(** The line an [except] clause of [connect] logs for [e]. *)
Definition vendor_error_line (e : PyExc) : string :=
  "Twitter API error while sending tweet: " +:+ str_exc e.

Definition unexpected_error_line (e : PyExc) : string :=
  "Unexpected error while sending tweet: " +:+ str_exc e.

(** ** The life of an adapter *)

(** An adapter object exists only once its constructor has returned. *)
Inductive AdapterState (ActionConfig : Type) :=
| Uninitialized
| Ready (a : TweetAPIConnector ActionConfig).

Arguments Uninitialized {ActionConfig}.
Arguments Ready {ActionConfig} _.

(** The states an adapter can be in, and the worlds it can be in them:
    construction succeeds or fails, a constructed adapter sends, and other
    code may change the world in between. *)
Inductive reachable {ActionConfig : Type} (repr_str : string → string)
  : AdapterState ActionConfig → World → Prop :=
| reach_start w :
    reachable repr_str Uninitialized w
| reach_ambient s w w' :
    reachable repr_str s w → reachable repr_str s w'
| reach_construct_ok w (cfg : ActionConfig) a w' :
    reachable repr_str Uninitialized w →
    __init__ cfg w = (inr a, w') →
    reachable repr_str (Ready a) w'
| reach_construct_fail w (cfg : ActionConfig) e w' :
    reachable repr_str Uninitialized w →
    __init__ cfg w = (inl e, w') →
    reachable repr_str Uninitialized w'
| reach_send a w oi r w' :
    reachable repr_str (Ready a) w →
    connect repr_str a oi w = (r, w') →
    reachable repr_str (Ready a) w'.

(** ** Sample worlds *)

Definition env_full : gmap string string :=
  list_to_map [("TWITTER_API_KEY", "key"); ("TWITTER_API_SECRET", "secret");
               ("TWITTER_ACCESS_TOKEN", "token");
               ("TWITTER_ACCESS_TOKEN_SECRET", "token-secret")].

Definition env_no_access_token : gmap string string :=
  delete "TWITTER_ACCESS_TOKEN" env_full.

Definition env_other_account : gmap string string :=
  list_to_map [("TWITTER_API_KEY", "k2"); ("TWITTER_API_SECRET", "s2");
               ("TWITTER_ACCESS_TOKEN", "t2");
               ("TWITTER_ACCESS_TOKEN_SECRET", "ts2")].

Definition dotenv_api_key : gmap string (option string) :=
  {[ "TWITTER_API_KEY" := Some "key" ]}.

Definition net_ok_123 (c : Client) (text : string) : PyExc + Response :=
  inr (mkResponse (DataDict {[ "id" := VStr "123"; "text" := VStr text ]})).

Definition net_forbidden (c : Client) (text : string) : PyExc + Response :=
  inl (Exc Forbidden "403 Forbidden" None).

Definition net_connection_reset (c : Client) (text : string)
  : PyExc + Response :=
  inl (Exc RuntimeError "connection reset" None).

Definition net_no_id (c : Client) (text : string) : PyExc + Response :=
  inr (mkResponse (DataDict {[ "text" := VStr text ]})).

Definition world_of (env : gmap string string)
    (dotenv : gmap string (option string))
    (net : Client → string → PyExc + Response) : World :=
  mkWorld env dotenv [] ∅ net [].

Definition sample_connector : TweetAPIConnector unit :=
  mkConnector () (client_of_environ env_full).

Definition other_connector : TweetAPIConnector unit :=
  mkConnector () (client_of_environ env_other_account).

Definition hello : TweetInput := mkTweetInput "hello".

(** A [.env] file that sets the four variables. *)
Definition dotenv_full : gmap string (option string) :=
  list_to_map [("TWITTER_API_KEY", Some "key");
               ("TWITTER_API_SECRET", Some "secret");
               ("TWITTER_ACCESS_TOKEN", Some "token");
               ("TWITTER_ACCESS_TOKEN_SECRET", Some "token-secret")].

(** A [.env] file with the credentials of another account. *)
Definition dotenv_other_account : gmap string (option string) :=
  Some <$> env_other_account.

(** A process environment in which the API key is set, but empty. *)
Definition env_empty_api_key : gmap string string :=
  {[ "TWITTER_API_KEY" := EmptyString ]}.

(** ** The constructor, step by step *)

Section InitFacts.

Context {ActionConfig : Type}.
Implicit Types (cfg : ActionConfig) (w : World).

(** Every class of the model descends from [BaseException], and the
    vendor's classes are the ones under [TweepyException]. *)
Lemma issubclass_BaseException c : issubclass c BaseException = true.
Proof. destruct c; reflexivity. Qed.

Lemma issubclass_TweepyException c :
  issubclass c TweepyException = true ↔
  c ∈ [TweepyException; HTTPException; Forbidden; TooManyRequests].
Proof.
  split.
  - destruct c; first [discriminate | intros _; repeat constructor].
  - rewrite !elem_of_cons, elem_of_nil. intros [->|[->|[->|[->|[]]]]]; reflexivity.
Qed.

Lemma effective_environ_keeps w k v :
  environ w !! k = Some v → effective_environ w !! k = Some v.
Proof. intros H. unfold effective_environ. by apply lookup_union_Some_l. Qed.

Lemma effective_environ_adds w k :
  environ w !! k = None →
  effective_environ w !! k = dotenv_file w !! k ≫= id.
Proof.
  intros H. unfold effective_environ.
  rewrite lookup_union_r by done. by rewrite lookup_omap.
Qed.

Lemma effective_environ_no_dotenv w :
  dotenv_file w = ∅ → effective_environ w = environ w.
Proof.
  intros H. unfold effective_environ. rewrite H, omap_empty.
  by rewrite (right_id_L ∅ (∪)).
Qed.

(** The constructor always leaves the same world; whether it returns the
    instance or raises depends only on the four values read. *)
Lemma init_eq cfg w :
  __init__ cfg w =
    (if py_all [effective_environ w !! "TWITTER_API_KEY";
                effective_environ w !! "TWITTER_API_SECRET";
                effective_environ w !! "TWITTER_ACCESS_TOKEN";
                effective_environ w !! "TWITTER_ACCESS_TOKEN_SECRET"]
     then inr (mkConnector cfg
                 (mkClient (effective_environ w !! "TWITTER_API_KEY")
                           (effective_environ w !! "TWITTER_API_SECRET")
                           (effective_environ w !! "TWITTER_ACCESS_TOKEN")
                           (effective_environ w !! "TWITTER_ACCESS_TOKEN_SECRET")))
     else inl (Exc ValueError
                 ("Missing required Twitter API credentials: "
                    +:+ join ", "
                          (List.filter (λ n, negb (truthy (effective_environ w !! n)))
                                       required_vars))
                 None),
     world_after_init w).
Proof.
  unfold __init__, bind, load_dotenv, catch_warnings, filterwarnings,
    import_module, os_getenv, modify, gets, world_after_init.
  cbn [environ dotenv_file warning_filters sys_modules network trace
       set_environ set_warning_filters set_sys_modules].
  fold (effective_environ w).
  unfold py_all, required_vars. cbn [forallb List.filter].
  destruct (truthy (effective_environ w !! "TWITTER_API_KEY"));
    destruct (truthy (effective_environ w !! "TWITTER_API_SECRET"));
    destruct (truthy (effective_environ w !! "TWITTER_ACCESS_TOKEN"));
    destruct (truthy (effective_environ w !! "TWITTER_ACCESS_TOKEN_SECRET"));
    reflexivity.
Qed.

End InitFacts.

(** ** Credential validation *)

Lemma required_vars_NoDup : NoDup required_vars.
Proof. apply (bool_decide_unpack _). vm_compute. reflexivity. Qed.

Lemma missing_names_spec env n :
  n ∈ missing_names env ↔ n ∈ required_vars ∧ truthy (env !! n) = false.
Proof.
  unfold missing_names. rewrite !list_elem_of_In, filter_In.
  by rewrite negb_true_iff.
Qed.

Lemma missing_names_nil env :
  missing_names env = [] ↔
  py_all [env !! "TWITTER_API_KEY"; env !! "TWITTER_API_SECRET";
          env !! "TWITTER_ACCESS_TOKEN"; env !! "TWITTER_ACCESS_TOKEN_SECRET"]
    = true.
Proof.
  unfold missing_names, required_vars, py_all. cbn [List.filter forallb].
  destruct (truthy (env !! "TWITTER_API_KEY"));
    destruct (truthy (env !! "TWITTER_API_SECRET"));
    destruct (truthy (env !! "TWITTER_ACCESS_TOKEN"));
    destruct (truthy (env !! "TWITTER_ACCESS_TOKEN_SECRET"));
    cbn; split; congruence.
Qed.

(** Two readings of the environment with the same message miss the same
    variables: the message names the missing set without ambiguity. *)
Lemma missing_message_inj env1 env2 :
  missing_message (missing_names env1) = missing_message (missing_names env2) →
  missing_names env1 = missing_names env2.
Proof.
  unfold missing_message, missing_names, required_vars. cbn [List.filter].
  destruct (truthy (env1 !! "TWITTER_API_KEY"));
    destruct (truthy (env1 !! "TWITTER_API_SECRET"));
    destruct (truthy (env1 !! "TWITTER_ACCESS_TOKEN"));
    destruct (truthy (env1 !! "TWITTER_ACCESS_TOKEN_SECRET"));
    destruct (truthy (env2 !! "TWITTER_API_KEY"));
    destruct (truthy (env2 !! "TWITTER_API_SECRET"));
    destruct (truthy (env2 !! "TWITTER_ACCESS_TOKEN"));
    destruct (truthy (env2 !! "TWITTER_ACCESS_TOKEN_SECRET"));
    cbn; first [reflexivity | discriminate].
Qed.

(** C1. Whenever some of the four required variables are missing or empty
    when the constructor reads them, construction raises [ValueError], and
    the message is the fixed prefix followed by the comma-separated names of
    exactly the missing or empty variables, in reading order; when only the
    access token is absent the message names [TWITTER_ACCESS_TOKEN] alone. *)
Theorem init_reports_exactly_the_missing_credentials
    {ActionConfig : Type} (cfg : ActionConfig) (w : World) (n : string) :
  n ∈ required_vars →
  truthy (effective_environ w !! n) = false →
  __init__ cfg w =
    (inl (Exc ValueError
            (missing_message (missing_names (effective_environ w))) None),
     world_after_init w)
  ∧ (∀ m, m ∈ missing_names (effective_environ w) ↔
          m ∈ required_vars ∧ truthy (effective_environ w !! m) = false)
  ∧ NoDup (missing_names (effective_environ w))
  ∧ (missing_names (effective_environ w) = ["TWITTER_ACCESS_TOKEN"] →
     missing_message (missing_names (effective_environ w)) =
       "Missing required Twitter API credentials: TWITTER_ACCESS_TOKEN")
  ∧ (truthy (effective_environ w !! "TWITTER_API_KEY") = true →
     truthy (effective_environ w !! "TWITTER_API_SECRET") = true →
     truthy (effective_environ w !! "TWITTER_ACCESS_TOKEN") = false →
     truthy (effective_environ w !! "TWITTER_ACCESS_TOKEN_SECRET") = true →
     missing_names (effective_environ w) = ["TWITTER_ACCESS_TOKEN"]).
Proof.
  intros Hn Hmiss.
  assert (Hne : missing_names (effective_environ w) ≠ []).
  { intros Hnil. assert (n ∈ missing_names (effective_environ w)) as Hin
      by (by apply missing_names_spec).
    rewrite Hnil in Hin. by apply elem_of_nil in Hin. }
  split; [|split; [|split; [|split]]].
  - rewrite init_eq.
    destruct (py_all _) eqn:Hall; [|reflexivity].
    by apply missing_names_nil in Hall.
  - intros m. apply missing_names_spec.
  - unfold missing_names. apply NoDup_ListNoDup, List.NoDup_filter, NoDup_ListNoDup.
    apply required_vars_NoDup.
  - intros ->. reflexivity.
  - intros H1 H2 H3 H4. unfold missing_names, required_vars.
    cbn [List.filter]. by rewrite H1, H2, H3, H4.
Qed.

Lemma init_reports_exactly_the_missing_credentials_witness :
  "TWITTER_ACCESS_TOKEN" ∈ required_vars
  ∧ truthy (effective_environ (world_of env_no_access_token ∅ net_ok_123)
              !! "TWITTER_ACCESS_TOKEN") = false
  ∧ __init__ () (world_of env_no_access_token ∅ net_ok_123) =
      (inl (Exc ValueError
              "Missing required Twitter API credentials: TWITTER_ACCESS_TOKEN"
              None),
       world_after_init (world_of env_no_access_token ∅ net_ok_123)).
Proof.
  assert (H1 : "TWITTER_ACCESS_TOKEN" ∈ required_vars)
    by (unfold required_vars; repeat constructor).
  assert (H2 : truthy (effective_environ
                         (world_of env_no_access_token ∅ net_ok_123)
                         !! "TWITTER_ACCESS_TOKEN") = false)
    by (vm_compute; reflexivity).
  split; [exact H1 | split; [exact H2 |]].
  destruct (init_reports_exactly_the_missing_credentials
              () (world_of env_no_access_token ∅ net_ok_123)
              "TWITTER_ACCESS_TOKEN" H1 H2) as (Heq & _ & _ & _ & Hnames).
  rewrite Heq, Hnames; [reflexivity | vm_compute; reflexivity ..].
Defined.

(** ** Client construction *)

Lemma truthy_Some s : s ≠ EmptyString → truthy (Some s) = true.
Proof.
  intros Hs. unfold truthy. destruct (String.eqb_spec s EmptyString); [done|done].
Qed.

Lemma truthy_true_inv v :
  truthy v = true → ∃ s, v = Some s ∧ s ≠ EmptyString.
Proof.
  destruct v as [s|]; [|discriminate]. unfold truthy.
  destruct (String.eqb_spec s EmptyString); [discriminate|]. eauto.
Qed.

Lemma py_all_four a b c d :
  py_all [a; b; c; d] = true ↔
  truthy a = true ∧ truthy b = true ∧ truthy c = true ∧ truthy d = true.
Proof.
  unfold py_all. cbn [forallb]. rewrite !andb_true_iff. tauto.
Qed.

(** C5. When the four variables are present and non-empty when the
    constructor reads them, construction returns an adapter whose client
    holds exactly those four values, and nothing is logged and no request
    goes to the vendor during construction. *)
Theorem init_with_all_credentials_succeeds
    {ActionConfig : Type} (cfg : ActionConfig) (w : World)
    (key secret token token_secret : string) :
  effective_environ w !! "TWITTER_API_KEY" = Some key → key ≠ EmptyString →
  effective_environ w !! "TWITTER_API_SECRET" = Some secret → secret ≠ EmptyString →
  effective_environ w !! "TWITTER_ACCESS_TOKEN" = Some token → token ≠ EmptyString →
  effective_environ w !! "TWITTER_ACCESS_TOKEN_SECRET" = Some token_secret →
  token_secret ≠ EmptyString →
  ∃ self,
    (__init__ cfg w).1 = inr self
    ∧ config self = cfg
    ∧ client self =
        mkClient (Some key) (Some secret) (Some token) (Some token_secret)
    ∧ client_complete (client self) = true
    ∧ trace (__init__ cfg w).2 = trace w
    ∧ network (__init__ cfg w).2 = network w.
Proof.
  intros Hk Hk' Hs Hs' Ht Ht' Hx Hx'.
  rewrite init_eq, Hk, Hs, Ht, Hx.
  assert (Hall : py_all [Some key; Some secret; Some token; Some token_secret]
                 = true)
    by (apply py_all_four; auto using truthy_Some).
  rewrite Hall. eexists. repeat split. exact Hall.
Qed.

Lemma init_with_all_credentials_succeeds_witness :
  ∃ self,
    (__init__ () (world_of env_full ∅ net_ok_123)).1 = inr self
    ∧ config self = ()
    ∧ client self =
        mkClient (Some "key") (Some "secret") (Some "token")
                 (Some "token-secret")
    ∧ client_complete (client self) = true
    ∧ trace (__init__ () (world_of env_full ∅ net_ok_123)).2 = []
    ∧ network (__init__ () (world_of env_full ∅ net_ok_123)).2 = net_ok_123.
Proof.
  apply (init_with_all_credentials_succeeds
           () (world_of env_full ∅ net_ok_123)
           "key" "secret" "token" "token-secret");
    first [ by vm_compute | discriminate ].
Defined.

(** ** The adapter is Ready only with full configuration *)

Lemma init_inr_inv {ActionConfig : Type} (cfg : ActionConfig) w a w' :
  __init__ cfg w = (inr a, w') →
  missing_names (effective_environ w) = []
  ∧ a = mkConnector cfg (client_of_environ (effective_environ w))
  ∧ w' = world_after_init w.
Proof.
  rewrite init_eq. destruct (py_all _) eqn:Hall; [|discriminate].
  intros [= <- <-]. split; [|done]. by apply missing_names_nil.
Qed.

Lemma init_inl_inv {ActionConfig : Type} (cfg : ActionConfig) w e w' :
  __init__ cfg w = (inl e, w') →
  missing_names (effective_environ w) ≠ []
  ∧ e = Exc ValueError (missing_message (missing_names (effective_environ w)))
            None
  ∧ w' = world_after_init w.
Proof.
  rewrite init_eq. destruct (py_all _) eqn:Hall; [discriminate|].
  intros [= <- <-]. split; [|done].
  intros Hnil%missing_names_nil. congruence.
Qed.

Lemma client_of_environ_complete env :
  client_complete (client_of_environ env) = true ↔ missing_names env = [].
Proof. by rewrite missing_names_nil. Qed.

(** C6. In every reachable state, an adapter that is Ready holds a client
    built by a construction that found all four variables present and
    non-empty, so its four credentials are non-empty; and from any reachable
    world in which some variable is missing or empty, construction raises
    and yields no adapter, hence no client and nothing to send with. *)
Theorem ready_only_with_all_credentials
    {ActionConfig : Type} (repr_str : string → string)
    (s : AdapterState ActionConfig) (w : World) :
  reachable repr_str s w →
  (∀ a, s = Ready a →
        client_complete (client a) = true
        ∧ ∃ cfg w0,
            __init__ cfg w0 = (inr a, world_after_init w0)
            ∧ missing_names (effective_environ w0) = []
            ∧ client a = client_of_environ (effective_environ w0))
  ∧ (∀ cfg : ActionConfig,
        missing_names (effective_environ w) ≠ [] →
        ∃ e, (__init__ cfg w).1 = inl e
             ∧ (∀ a, (__init__ cfg w).1 ≠ inr a)
             ∧ vendor_calls (trace (__init__ cfg w).2) = vendor_calls (trace w)).
Proof.
  intros Hreach. split.
  - induction Hreach as [w|s w w' _ IH|w cfg a w' _ _ Hinit
                         |w cfg e w' _ _ Hinit|a w oi r w' _ IH Hsend];
      intros b Hb; try discriminate; auto.
    injection Hb as ->.
    destruct (init_inr_inv _ _ _ _ Hinit) as (Hnil & -> & ->).
    split; [by apply client_of_environ_complete|].
    exists cfg, w. by rewrite <- Hinit.
  - intros cfg Hmiss. rewrite init_eq.
    destruct (py_all _) eqn:Hall.
    + by apply missing_names_nil in Hall.
    + eexists. split; [reflexivity|]. split; [discriminate|reflexivity].
Qed.

Lemma sample_reachable :
  reachable repr_plain (Ready sample_connector)
    (connect repr_plain sample_connector hello
       (world_after_init (world_of env_full ∅ net_ok_123))).2.
Proof.
  eapply reach_send; [|apply surjective_pairing].
  eapply (reach_construct_ok _ (world_of env_full ∅ net_ok_123) ());
    [apply reach_start|].
  rewrite init_eq. vm_compute. reflexivity.
Qed.

Lemma ready_only_with_all_credentials_witness :
  reachable repr_plain (Ready sample_connector)
    (connect repr_plain sample_connector hello
       (world_after_init (world_of env_full ∅ net_ok_123))).2
  ∧ client_complete (client sample_connector) = true.
Proof.
  split; [exact sample_reachable|].
  destruct (ready_only_with_all_credentials repr_plain _ _ sample_reachable)
    as [Hready _].
  destruct (Hready sample_connector eq_refl) as [Hcomplete _].
  exact Hcomplete.
Defined.

(** ** Sending, step by step *)

Section ConnectFacts.

Context {ActionConfig : Type} (repr_str : string → string).
Implicit Types (self : TweetAPIConnector ActionConfig) (oi : TweetInput).
Implicit Types (w : World) (e : PyExc).

(** The [try] body: one log line, one vendor call, then either the success
    line or the exception of the vendor or of the lookup of ["id"]. *)
Lemma connect_try_eq self oi w :
  connect_try repr_str self oi w =
    match network w (client self) (action oi) with
    | inl e => (inl e, world_at_call repr_str self oi w)
    | inr response =>
        match data response with
        | DataNone =>
            (inl (Exc TypeError "'NoneType' object is not subscriptable" None),
             world_at_call repr_str self oi w)
        | DataDict d =>
            match d !! "id" with
            | Some tweet_id =>
                (inr (), emit (EvLog INFO (success_line tweet_id))
                              (world_at_call repr_str self oi w))
            | None =>
                (inl (Exc KeyError (repr_str "id") None),
                 world_at_call repr_str self oi w)
            end
        end
    end.
Proof.
  unfold connect_try, bind, logging_info, create_tweet, modify, world_at_call,
    sending_line.
  cbn [network emit].
  destruct (network w (client self) (action oi)) as [e|[[|d]]]; try reflexivity.
  unfold getitem. cbn [data]. destruct (d !! "id"); reflexivity.
Qed.

(** In [twitterAPI.py] the first [except] clause cannot be evaluated:
    whatever the [try] body raises, [connect] ends in [NameError]. *)
Lemma connect_of_try self oi w :
  connect repr_str self oi w =
    match connect_try repr_str self oi w with
    | (inl e, w') => (inl (tweepy_name_error e), w')
    | (inr u, w') => (inr u, w')
    end.
Proof.
  unfold connect, connect_in, try_except.
  destruct (connect_try repr_str self oi w) as [[e|u] w']; reflexivity.
Qed.

(** With [tweepy] bound at module level the two clauses do what they say. *)
Lemma connect_with_tweepy_of_try self oi w :
  connect_in repr_str globals_with_tweepy self oi w =
    match connect_try repr_str self oi w with
    | (inl e, w') =>
        if isinstance e TweepyException
        then (inl e, emit (EvLog ERROR (vendor_error_line e)) w')
        else if isinstance e Exception
        then (inl e, emit (EvLog ERROR (unexpected_error_line e)) w')
        else (inl e, w')
    | (inr u, w') => (inr u, w')
    end.
Proof.
  unfold connect_in, try_except.
  destruct (connect_try repr_str self oi w) as [[e|u] w']; [|reflexivity].
  unfold connect_handlers, dispatch, bind, during_handling.
  cbn [globals_with_tweepy load_global ns_lookup String.eqb Ascii.eqb
       Bool.eqb tweepy_module load_attr ret].
  cbn.
  destruct (isinstance e TweepyException); [reflexivity|].
  destruct (isinstance e Exception); reflexivity.
Qed.

Lemma trace_world_at_call self oi w :
  trace (world_at_call repr_str self oi w) =
    trace w ++ [EvLog INFO (sending_line repr_str oi);
                EvCreateTweet (client self) (action oi)].
Proof. unfold world_at_call. cbn [trace emit]. by rewrite <- app_assoc. Qed.

(** What [connect] appends to the trace. *)
Lemma connect_trace self oi w :
  ∃ last_lines,
    trace (connect repr_str self oi w).2 =
      trace w ++ [EvLog INFO (sending_line repr_str oi);
                  EvCreateTweet (client self) (action oi)] ++ last_lines
    ∧ last_lines =
        match network w (client self) (action oi) with
        | inr {| data := DataDict d |} =>
            match d !! "id" with
            | Some tweet_id => [EvLog INFO (success_line tweet_id)]
            | None => []
            end
        | _ => []
        end.
Proof.
  rewrite connect_of_try, connect_try_eq.
  destruct (network w (client self) (action oi)) as [e|[[|d]]];
    cbn [data]; [| |destruct (d !! "id")];
    (eexists; split; [|reflexivity]); cbn [snd trace emit];
    rewrite trace_world_at_call, <- ?app_assoc; reflexivity.
Qed.

End ConnectFacts.

Lemma log_lines_app t1 t2 : log_lines (t1 ++ t2) = log_lines t1 ++ log_lines t2.
Proof. apply omap_app. Qed.

Lemma vendor_calls_app t1 t2 :
  vendor_calls (t1 ++ t2) = vendor_calls t1 ++ vendor_calls t2.
Proof. apply omap_app. Qed.

Lemma error_lines_app t1 t2 :
  error_lines (t1 ++ t2) = error_lines t1 ++ error_lines t2.
Proof. apply omap_app. Qed.

(** [connect] as the file has it never writes an error line. *)
Lemma connect_logs_no_error {ActionConfig : Type} repr_str
    (self : TweetAPIConnector ActionConfig) oi w :
  error_lines (trace (connect repr_str self oi w).2) = error_lines (trace w).
Proof.
  destruct (connect_trace repr_str self oi w) as (l & -> & ->).
  rewrite !error_lines_app.
  destruct (network w (client self) (action oi)) as [e|[[|d]]];
    [| |destruct (d !! "id")]; cbn; by rewrite app_nil_r.
Qed.

(** ** Sending *)

(** C2. When the vendor's response carries a post identifier under ["id"],
    [connect] returns normally and its last log line is the info line with
    the URL [https://twitter.com/user/status/] followed by that identifier;
    for the identifier ["123"] the line ends in [/status/123]. *)
Theorem connect_success_logs_status_url
    {ActionConfig : Type} (repr_str : string → string)
    (self : TweetAPIConnector ActionConfig) (oi : TweetInput) (w : World)
    (response : Response) (d : gmap string PyVal) (tweet_id : PyVal) :
  network w (client self) (action oi) = inr response →
  data response = DataDict d →
  d !! "id" = Some tweet_id →
  (connect repr_str self oi w).1 = inr ()
  ∧ trace (connect repr_str self oi w).2 =
      trace w ++
      [EvLog INFO (sending_line repr_str oi);
       EvCreateTweet (client self) (action oi);
       EvLog INFO ("Tweet sent successfully! URL: "
                     +:+ "https://twitter.com/user/status/"
                     +:+ format tweet_id)]
  ∧ (tweet_id = VStr "123" →
     last (trace (connect repr_str self oi w).2) =
       Some (EvLog INFO ("Tweet sent successfully! URL: https://twitter.com/user"
                           +:+ "/status/123"))).
Proof.
  intros Hnet Hdata Hid.
  assert (Heq : connect repr_str self oi w =
                  (inr (), emit (EvLog INFO (success_line tweet_id))
                                (world_at_call repr_str self oi w))).
  { rewrite connect_of_try, connect_try_eq, Hnet, Hdata, Hid. reflexivity. }
  rewrite Heq. cbn [fst snd trace emit]. rewrite trace_world_at_call.
  split; [reflexivity|]. split.
  - by rewrite <- app_assoc.
  - intros ->. by rewrite last_snoc.
Qed.

Lemma connect_success_logs_status_url_witness :
  (connect repr_plain sample_connector hello
     (world_of env_full ∅ net_ok_123)).1 = inr ()
  ∧ last (trace (connect repr_plain sample_connector hello
                   (world_of env_full ∅ net_ok_123)).2) =
      Some (EvLog INFO
              "Tweet sent successfully! URL: https://twitter.com/user/status/123").
Proof.
  destruct (connect_success_logs_status_url repr_plain sample_connector hello
              (world_of env_full ∅ net_ok_123)
              (mkResponse (DataDict {[ "id" := VStr "123";
                                       "text" := VStr "hello" ]}))
              {[ "id" := VStr "123"; "text" := VStr "hello" ]}
              (VStr "123") eq_refl eq_refl eq_refl) as (Hret & _ & Hlast).
  split; [exact Hret | exact (Hlast eq_refl)].
Defined.

(** C7. Every run of [connect] sends exactly one request to the vendor,
    whatever the outcome: what it adds to the trace contains one
    [create_tweet] call, made with the adapter's client and with the
    message's text field as the text. *)
Theorem connect_calls_vendor_exactly_once
    {ActionConfig : Type} (repr_str : string → string)
    (self : TweetAPIConnector ActionConfig) (oi : TweetInput) (w : World) :
  ∃ added,
    trace (connect repr_str self oi w).2 = trace w ++ added
    ∧ vendor_calls added = [(client self, action oi)].
Proof.
  destruct (connect_trace repr_str self oi w) as (l & Htrace & ->).
  eexists. split; [exact Htrace|].
  destruct (network w (client self) (action oi)) as [e|[[|d]]];
    [| |destruct (d !! "id")]; reflexivity.
Qed.

(** ** Credentials and the log *)

(** C8. Two runs that differ in the values of the credentials only (the same
    variables are set, the log is the same so far, the vendor answers the
    same) log the same lines, in construction and in [connect]: construction
    logs nothing, its error, if any, is the same in both runs, and the lines
    of [connect] do not depend on the client's credentials. *)
Theorem log_independent_of_credentials
    {ActionConfig : Type} (repr_str : string → string) (cfg : ActionConfig)
    (w1 w2 : World) (self1 self2 : TweetAPIConnector ActionConfig)
    (oi : TweetInput) :
  trace w1 = trace w2 →
  (∀ n, n ∈ required_vars →
        truthy (effective_environ w1 !! n) = truthy (effective_environ w2 !! n)) →
  network w1 (client self1) (action oi) = network w2 (client self2) (action oi) →
  log_lines (trace (__init__ cfg w1).2) = log_lines (trace w1)
  ∧ log_lines (trace (__init__ cfg w1).2) = log_lines (trace (__init__ cfg w2).2)
  ∧ raised (__init__ cfg w1) = raised (__init__ cfg w2)
  ∧ log_lines (trace (connect repr_str self1 oi w1).2) =
      log_lines (trace (connect repr_str self2 oi w2).2).
Proof.
  intros Htrace Hcred Hnet.
  assert (H1 := Hcred "TWITTER_API_KEY"
                  ltac:(unfold required_vars; repeat constructor)).
  assert (H2 := Hcred "TWITTER_API_SECRET"
                  ltac:(unfold required_vars; repeat constructor)).
  assert (H3 := Hcred "TWITTER_ACCESS_TOKEN"
                  ltac:(unfold required_vars; repeat constructor)).
  assert (H4 := Hcred "TWITTER_ACCESS_TOKEN_SECRET"
                  ltac:(unfold required_vars; repeat constructor)).
  split; [|split; [|split]].
  - by rewrite init_eq.
  - rewrite !init_eq. cbn [snd world_after_init trace]. by rewrite Htrace.
  - rewrite !init_eq. unfold raised, py_all, required_vars.
    cbn [fst forallb List.filter]. rewrite H1, H2, H3, H4.
    destruct (truthy (effective_environ w2 !! "TWITTER_API_KEY"));
      destruct (truthy (effective_environ w2 !! "TWITTER_API_SECRET"));
      destruct (truthy (effective_environ w2 !! "TWITTER_ACCESS_TOKEN"));
      destruct (truthy (effective_environ w2 !! "TWITTER_ACCESS_TOKEN_SECRET"));
      reflexivity.
  - destruct (connect_trace repr_str self1 oi w1) as (l1 & -> & ->).
    destruct (connect_trace repr_str self2 oi w2) as (l2 & -> & ->).
    rewrite Htrace, Hnet, !log_lines_app. reflexivity.
Qed.

Lemma log_independent_of_credentials_witness :
  log_lines (trace (__init__ () (world_of env_full ∅ net_ok_123)).2) =
    log_lines (trace (__init__ () (world_of env_other_account ∅ net_ok_123)).2)
  ∧ log_lines (trace (connect repr_plain sample_connector hello
                        (world_of env_full ∅ net_ok_123)).2) =
      log_lines (trace (connect repr_plain other_connector hello
                          (world_of env_other_account ∅ net_ok_123)).2).
Proof.
  assert (Hcred : ∀ n, n ∈ required_vars →
            truthy (effective_environ (world_of env_full ∅ net_ok_123) !! n) =
            truthy (effective_environ (world_of env_other_account ∅ net_ok_123)
                      !! n)).
  { intros n Hn. unfold required_vars in Hn.
    rewrite !elem_of_cons, elem_of_nil in Hn.
    destruct Hn as [->|[->|[->|[->|[]]]]]; vm_compute; reflexivity. }
  destruct (log_independent_of_credentials repr_plain ()
              (world_of env_full ∅ net_ok_123)
              (world_of env_other_account ∅ net_ok_123)
              sample_connector other_connector hello
              eq_refl Hcred eq_refl) as (_ & Hinit & _ & Hconnect).
  split; [exact Hinit | exact Hconnect].
Defined.

(** ** The [except] clauses of [connect] *)

(** C3. A vendor exception ([Forbidden], a [TweepyException]) reaches no
    handler: [connect] raises [NameError] with the vendor exception as its
    context and writes no error line.  With [tweepy] bound at module level
    the same run logs the vendor error line and re-raises the exception. *)
Theorem connect_vendor_exception_ends_in_name_error :
  network (world_of env_full ∅ net_forbidden) (client sample_connector) "hello"
    = inl (Exc Forbidden "403 Forbidden" None)
  ∧ (connect repr_plain sample_connector hello
       (world_of env_full ∅ net_forbidden)).1 =
      inl (Exc NameError "name 'tweepy' is not defined"
             (Some (Exc Forbidden "403 Forbidden" None)))
  ∧ error_lines (trace (connect repr_plain sample_connector hello
                          (world_of env_full ∅ net_forbidden)).2) = []
  ∧ (connect_in repr_plain globals_with_tweepy sample_connector hello
       (world_of env_full ∅ net_forbidden)).1 =
      inl (Exc Forbidden "403 Forbidden" None)
  ∧ error_lines (trace (connect_in repr_plain globals_with_tweepy
                          sample_connector hello
                          (world_of env_full ∅ net_forbidden)).2) =
      ["Twitter API error while sending tweet: 403 Forbidden"].
Proof. repeat split; vm_compute; reflexivity. Qed.

(** C4. An exception that is not the vendor's ([RuntimeError]) reaches no
    handler either: [connect] raises [NameError] with it as context and
    writes no error line.  With [tweepy] bound at module level the same run
    logs the generic error line and re-raises the exception unchanged. *)
Theorem connect_other_exception_ends_in_name_error :
  network (world_of env_full ∅ net_connection_reset)
          (client sample_connector) "hello"
    = inl (Exc RuntimeError "connection reset" None)
  ∧ (connect repr_plain sample_connector hello
       (world_of env_full ∅ net_connection_reset)).1 =
      inl (Exc NameError "name 'tweepy' is not defined"
             (Some (Exc RuntimeError "connection reset" None)))
  ∧ error_lines (trace (connect repr_plain sample_connector hello
                          (world_of env_full ∅ net_connection_reset)).2) = []
  ∧ (connect_in repr_plain globals_with_tweepy sample_connector hello
       (world_of env_full ∅ net_connection_reset)).1 =
      inl (Exc RuntimeError "connection reset" None)
  ∧ error_lines (trace (connect_in repr_plain globals_with_tweepy
                          sample_connector hello
                          (world_of env_full ∅ net_connection_reset)).2) =
      ["Unexpected error while sending tweet: connection reset"].
Proof. repeat split; vm_compute; reflexivity. Qed.

(** C10. A response without ["id"]: the request has gone to the vendor, no
    success line is written, and [connect] raises; but the exception is
    [NameError] with the [KeyError] as context and no error line is written.
    With [tweepy] bound at module level the same run logs the generic error
    line and re-raises the [KeyError]. *)
Theorem connect_missing_id_ends_in_name_error :
  network (world_of env_full ∅ net_no_id) (client sample_connector) "hello"
    = inr (mkResponse (DataDict {[ "text" := VStr "hello" ]}))
  ∧ trace (connect repr_plain sample_connector hello
             (world_of env_full ∅ net_no_id)).2 =
      [EvLog INFO "SendThisToTwitterAPI: {'action': 'hello'}";
       EvCreateTweet (client sample_connector) "hello"]
  ∧ (connect repr_plain sample_connector hello
       (world_of env_full ∅ net_no_id)).1 =
      inl (Exc NameError "name 'tweepy' is not defined"
             (Some (Exc KeyError "'id'" None)))
  ∧ (connect_in repr_plain globals_with_tweepy sample_connector hello
       (world_of env_full ∅ net_no_id)).1 =
      inl (Exc KeyError "'id'" None)
  ∧ error_lines (trace (connect_in repr_plain globals_with_tweepy
                          sample_connector hello
                          (world_of env_full ∅ net_no_id)).2) =
      ["Unexpected error while sending tweet: 'id'"].
Proof. repeat split; vm_compute; reflexivity. Qed.

(** ** What construction changes *)

Lemma init_loads_dotenv_into_environ :
  environ (world_of ∅ dotenv_api_key net_ok_123) !! "TWITTER_API_KEY" = None
  ∧ environ (__init__ () (world_of ∅ dotenv_api_key net_ok_123)).2
      !! "TWITTER_API_KEY" = Some "key".
Proof. split; vm_compute; reflexivity. Qed.

(** Construction with a [.env] file that sets a variable the process does
    not have: the process environment is not what it was. *)
Lemma init_modifies_environ_counterexample :
  ¬ (environ (__init__ () (world_of ∅ dotenv_api_key net_ok_123)).2 =
       environ (world_of ∅ dotenv_api_key net_ok_123)
     ∧ warning_filters (__init__ () (world_of ∅ dotenv_api_key net_ok_123)).2 =
         warning_filters (world_of ∅ dotenv_api_key net_ok_123)
     ∧ sys_modules (__init__ () (world_of ∅ dotenv_api_key net_ok_123)).2 =
         sys_modules (world_of ∅ dotenv_api_key net_ok_123)).
Proof.
  intros [Henv _].
  destruct init_loads_dotenv_into_environ as [Hbefore Hafter].
  rewrite Henv, Hbefore in Hafter. discriminate.
Qed.

(** C9. Construction leaves the warning filters, the log and the network as
    it found them, on success and on failure; it merges the [.env] file into
    the process environment, adding the file's variables that have a value
    and are not set yet and keeping every variable already set; and it loads
    the vendor library. *)
Theorem init_frame {ActionConfig : Type} (cfg : ActionConfig) (w : World) :
  warning_filters (__init__ cfg w).2 = warning_filters w
  ∧ trace (__init__ cfg w).2 = trace w
  ∧ network (__init__ cfg w).2 = network w
  ∧ dotenv_file (__init__ cfg w).2 = dotenv_file w
  ∧ environ (__init__ cfg w).2 = environ w ∪ omap id (dotenv_file w)
  ∧ environ w ⊆ environ (__init__ cfg w).2
  ∧ sys_modules (__init__ cfg w).2 = {["tweepy"]} ∪ sys_modules w.
Proof.
  rewrite init_eq. cbn [snd world_after_init warning_filters trace network
                        dotenv_file environ sys_modules].
  repeat split. apply map_union_subseteq_l.
Qed.

(** ** Where the credentials come from *)

Lemma init_result {ActionConfig : Type} (cfg : ActionConfig) w :
  (__init__ cfg w).1 =
    if decide (missing_names (effective_environ w) = [])
    then inr (mkConnector cfg (client_of_environ (effective_environ w)))
    else inl (Exc ValueError
                (missing_message (missing_names (effective_environ w))) None).
Proof.
  rewrite init_eq. cbn [fst].
  destruct (py_all _) eqn:Hall; case_decide as Hnil; try reflexivity.
  - by apply missing_names_nil in Hall.
  - apply missing_names_nil in Hnil. congruence.
Qed.

(** X1. Construction returns an adapter exactly when none of the four variables
    is missing or empty at the time they are read. *)
Theorem init_succeeds_iff_nothing_missing
    {ActionConfig : Type} (cfg : ActionConfig) (w : World) :
  (∃ self, (__init__ cfg w).1 = inr self) ↔
  missing_names (effective_environ w) = [].
Proof.
  rewrite init_result. case_decide as Hnil; split.
  - done.
  - eauto.
  - intros [self Hself]. discriminate.
  - done.
Qed.

(** X2. A variable that is set but empty in the process environment is not
    filled in from the [.env] file: construction fails and names it,
    whatever the file holds. *)
Theorem empty_variable_not_filled_from_dotenv
    {ActionConfig : Type} (cfg : ActionConfig) (w : World) (n : string) :
  n ∈ required_vars →
  environ w !! n = Some EmptyString →
  n ∈ missing_names (effective_environ w)
  ∧ (__init__ cfg w).1 =
      inl (Exc ValueError
             (missing_message (missing_names (effective_environ w))) None).
Proof.
  intros Hn Hempty.
  assert (Hin : n ∈ missing_names (effective_environ w)).
  { apply missing_names_spec. split; [done|].
    by rewrite (effective_environ_keeps _ _ _ Hempty). }
  split; [done|]. rewrite init_result. case_decide as Hnil; [|done].
  rewrite Hnil in Hin. by apply elem_of_nil in Hin.
Qed.

Lemma empty_variable_not_filled_from_dotenv_witness :
  (__init__ () (world_of env_empty_api_key dotenv_full net_ok_123)).1 =
    inl (Exc ValueError
           "Missing required Twitter API credentials: TWITTER_API_KEY" None).
Proof.
  destruct (empty_variable_not_filled_from_dotenv
              () (world_of env_empty_api_key dotenv_full net_ok_123)
              "TWITTER_API_KEY"
              ltac:(unfold required_vars; repeat constructor)
              ltac:(vm_compute; reflexivity)) as [_ Hraise].
  rewrite Hraise. vm_compute. reflexivity.
Defined.

(** X3. The four credentials may come from the [.env] file alone: with none of
    them in the process environment and all four non-empty in the file,
    construction succeeds and the client holds the file's values. *)
Theorem init_with_credentials_from_dotenv
    {ActionConfig : Type} (cfg : ActionConfig) (w : World)
    (key secret token token_secret : string) :
  environ w !! "TWITTER_API_KEY" = None →
  environ w !! "TWITTER_API_SECRET" = None →
  environ w !! "TWITTER_ACCESS_TOKEN" = None →
  environ w !! "TWITTER_ACCESS_TOKEN_SECRET" = None →
  dotenv_file w !! "TWITTER_API_KEY" = Some (Some key) → key ≠ EmptyString →
  dotenv_file w !! "TWITTER_API_SECRET" = Some (Some secret) →
  secret ≠ EmptyString →
  dotenv_file w !! "TWITTER_ACCESS_TOKEN" = Some (Some token) →
  token ≠ EmptyString →
  dotenv_file w !! "TWITTER_ACCESS_TOKEN_SECRET" = Some (Some token_secret) →
  token_secret ≠ EmptyString →
  (__init__ cfg w).1 =
    inr (mkConnector cfg
           (mkClient (Some key) (Some secret) (Some token) (Some token_secret))).
Proof.
  intros E1 E2 E3 E4 D1 N1 D2 N2 D3 N3 D4 N4.
  rewrite init_eq. cbn [fst].
  rewrite !effective_environ_adds by done. rewrite D1, D2, D3, D4.
  cbn [mbind option_bind id].
  assert (Hall : py_all [Some key; Some secret; Some token; Some token_secret]
                 = true)
    by (apply py_all_four; auto using truthy_Some).
  by rewrite Hall.
Qed.

Lemma init_with_credentials_from_dotenv_witness :
  (__init__ () (world_of ∅ dotenv_full net_ok_123)).1 = inr sample_connector.
Proof.
  apply (init_with_credentials_from_dotenv
           () (world_of ∅ dotenv_full net_ok_123)
           "key" "secret" "token" "token-secret");
    first [ by vm_compute | discriminate ].
Defined.

(** X4. The process environment takes precedence over the [.env] file: with the
    four variables set and non-empty in the process environment, the client
    holds the process environment's values, whatever the file holds. *)
Theorem init_prefers_process_environment
    {ActionConfig : Type} (cfg : ActionConfig) (w : World)
    (key secret token token_secret : string) :
  environ w !! "TWITTER_API_KEY" = Some key → key ≠ EmptyString →
  environ w !! "TWITTER_API_SECRET" = Some secret → secret ≠ EmptyString →
  environ w !! "TWITTER_ACCESS_TOKEN" = Some token → token ≠ EmptyString →
  environ w !! "TWITTER_ACCESS_TOKEN_SECRET" = Some token_secret →
  token_secret ≠ EmptyString →
  (__init__ cfg w).1 =
    inr (mkConnector cfg
           (mkClient (Some key) (Some secret) (Some token) (Some token_secret))).
Proof.
  intros E1 N1 E2 N2 E3 N3 E4 N4.
  rewrite init_eq. cbn [fst].
  rewrite (effective_environ_keeps _ _ _ E1), (effective_environ_keeps _ _ _ E2),
    (effective_environ_keeps _ _ _ E3), (effective_environ_keeps _ _ _ E4).
  assert (Hall : py_all [Some key; Some secret; Some token; Some token_secret]
                 = true)
    by (apply py_all_four; auto using truthy_Some).
  by rewrite Hall.
Qed.

Lemma init_prefers_process_environment_witness :
  (__init__ () (world_of env_full dotenv_other_account net_ok_123)).1 =
    inr sample_connector.
Proof.
  apply (init_prefers_process_environment
           () (world_of env_full dotenv_other_account net_ok_123)
           "key" "secret" "token" "token-secret");
    first [ by vm_compute | discriminate ].
Defined.

Lemma effective_environ_after_init w :
  effective_environ (world_after_init w) = effective_environ w.
Proof.
  unfold effective_environ, world_after_init. cbn [environ dotenv_file].
  unfold effective_environ.
  by rewrite <- (assoc_L (∪)), (idemp_L (∪)).
Qed.

Lemma world_after_init_idemp w :
  world_after_init (world_after_init w) = world_after_init w.
Proof.
  unfold world_after_init at 1.
  rewrite effective_environ_after_init.
  unfold world_after_init.
  cbn [dotenv_file warning_filters sys_modules network trace].
  f_equal. by rewrite (assoc_L (∪)), (idemp_L (∪)).
Qed.

(** X5. Construction can be repeated: run again in the world a first
    construction left, it gives the same adapter or the same error and
    changes nothing more. *)
Theorem init_repeatable
    {ActionConfig : Type} (cfg : ActionConfig) (w : World) :
  __init__ cfg (__init__ cfg w).2 = __init__ cfg w.
Proof.
  rewrite (init_eq cfg w). cbn [snd]. rewrite init_eq.
  by rewrite effective_environ_after_init, world_after_init_idemp.
Qed.

(** X6. The error message tells which variables are missing: two constructions
    that fail with the same message miss the same variables, although one
    name is a prefix of another. *)
Theorem missing_message_determines_missing_names
    (env1 env2 : gmap string string) :
  missing_message (missing_names env1) = missing_message (missing_names env2) →
  ∀ n, n ∈ required_vars → truthy (env1 !! n) = truthy (env2 !! n).
Proof.
  intros Heq%missing_message_inj n Hn.
  assert (Hiff : n ∈ missing_names env1 ↔ n ∈ missing_names env2)
    by (by rewrite Heq).
  rewrite !missing_names_spec in Hiff.
  destruct (truthy (env1 !! n)), (truthy (env2 !! n)); try done.
  - by destruct Hiff as [_ [_ [=]]].
  - by destruct Hiff as [[_ [=]] _].
Qed.

Lemma missing_message_determines_missing_names_witness :
  truthy (env_no_access_token !! "TWITTER_ACCESS_TOKEN_SECRET") =
    truthy (delete "TWITTER_ACCESS_TOKEN" env_other_account
              !! "TWITTER_ACCESS_TOKEN_SECRET").
Proof.
  apply (missing_message_determines_missing_names
           env_no_access_token (delete "TWITTER_ACCESS_TOKEN" env_other_account)).
  - vm_compute. reflexivity.
  - unfold required_vars. repeat constructor.
Defined.

(** ** What sending does and does not do *)

Section ConnectMore.

Context {ActionConfig : Type} (repr_str : string → string).
Implicit Types (self : TweetAPIConnector ActionConfig) (oi : TweetInput).
Implicit Types (w : World) (e : PyExc).

Lemma connect_vendor_calls self oi w :
  vendor_calls (trace (connect repr_str self oi w).2) =
    vendor_calls (trace w) ++ [(client self, action oi)].
Proof.
  destruct (connect_trace repr_str self oi w) as (l & -> & ->).
  rewrite !vendor_calls_app.
  destruct (network w (client self) (action oi)) as [e|[[|d]]];
    [| |destruct (d !! "id")]; reflexivity.
Qed.


(** X7. [connect] returns normally exactly when the vendor answers with a
    response whose data is a dictionary that has an ["id"]. *)
Theorem connect_returns_iff_response_has_id self oi w :
  (connect repr_str self oi w).1 = inr () ↔
  ∃ response d tweet_id,
    network w (client self) (action oi) = inr response
    ∧ data response = DataDict d
    ∧ d !! "id" = Some tweet_id.
Proof.
  rewrite connect_of_try, connect_try_eq.
  destruct (network w (client self) (action oi)) as [e|[[|d]]] eqn:Hnet;
    cbn [data]; [| |destruct (d !! "id") as [v|] eqn:Hid]; cbn [fst]; split;
    try discriminate; try done.
  - intros (? & ? & ? & [=] & _).
  - intros (r & d & v & [= <-] & [=] & _).
  - intros _. by exists (mkResponse (DataDict d)), d, v.
  - intros (r & d' & v & [= <-] & [= <-] & Hv). congruence.
Qed.

(** X8. Whenever [connect] raises, what the caller receives is the [NameError]
    for [tweepy], with the exception of the vendor call or of the lookup of
    ["id"] as its context, and no error line has been written. *)
Theorem connect_failure_is_name_error self oi w e' :
  (connect repr_str self oi w).1 = inl e' →
  exc_class e' = NameError
  ∧ str_exc e' = "name 'tweepy' is not defined"
  ∧ (∃ e, exc_context e' = Some e
          ∧ (network w (client self) (action oi) = inl e
             ∨ ∃ response, network w (client self) (action oi) = inr response
                           ∧ exc_class e ∈ [TypeError; KeyError]))
  ∧ error_lines (trace (connect repr_str self oi w).2) = error_lines (trace w).
Proof.
  intros Hraise. split; [|split; [|split]];
    [| | |apply connect_logs_no_error];
    revert Hraise; rewrite connect_of_try, connect_try_eq;
    destruct (network w (client self) (action oi)) as [e|[[|d]]];
    cbn [data]; [| |destruct (d !! "id")| | |destruct (d !! "id")
                 | | |destruct (d !! "id")]; cbn [fst];
    intros [= <-]; try reflexivity.
  - exists e. split; [reflexivity|]. by left.
  - eexists. split; [reflexivity|]. right. eexists. split; [reflexivity|].
    cbn. repeat constructor.
  - eexists. split; [reflexivity|]. right. eexists. split; [reflexivity|].
    cbn. repeat constructor.
Qed.

(** X9. What [connect] adds to the trace, by outcome: the announcing line, then
    the request, and the success line after them exactly when it returns
    normally. The announcing line is written even when the request fails. *)
Theorem connect_trace_by_outcome self oi w :
  match (connect repr_str self oi w).1 with
  | inr _ =>
      ∃ tweet_id,
        trace (connect repr_str self oi w).2 =
          trace w ++ [EvLog INFO (sending_line repr_str oi);
                      EvCreateTweet (client self) (action oi);
                      EvLog INFO (success_line tweet_id)]
  | inl _ =>
      trace (connect repr_str self oi w).2 =
        trace w ++ [EvLog INFO (sending_line repr_str oi);
                    EvCreateTweet (client self) (action oi)]
  end.
Proof.
  rewrite connect_of_try, connect_try_eq.
  destruct (network w (client self) (action oi)) as [e|[[|d]]];
    cbn [data]; [| |destruct (d !! "id") as [v|]]; cbn [fst snd];
    try apply trace_world_at_call.
  exists v. cbn [trace emit]. rewrite trace_world_at_call.
  by rewrite <- app_assoc.
Qed.


(** X11. There is no deduplication: sending the same message twice makes two
    requests with the same text. *)
Theorem two_sends_make_two_requests self oi w :
  vendor_calls
    (trace (connect repr_str self oi (connect repr_str self oi w).2).2) =
    vendor_calls (trace w)
      ++ [(client self, action oi); (client self, action oi)].
Proof. rewrite !connect_vendor_calls. by rewrite <- app_assoc. Qed.

End ConnectMore.

Lemma connect_failure_is_name_error_witness :
  exc_class (Exc NameError "name 'tweepy' is not defined"
               (Some (Exc Forbidden "403 Forbidden" None))) = NameError
  ∧ error_lines (trace (connect repr_plain sample_connector hello
                          (world_of env_full ∅ net_forbidden)).2) = [].
Proof.
  destruct (connect_failure_is_name_error repr_plain sample_connector hello
              (world_of env_full ∅ net_forbidden)
              (Exc NameError "name 'tweepy' is not defined"
                 (Some (Exc Forbidden "403 Forbidden" None)))
              ltac:(vm_compute; reflexivity)) as (Hcls & _ & _ & Hlines).
  split; [exact Hcls | exact Hlines].
Defined.

(** ** The [except] clauses under any module globals *)

(** However the names [tweepy] and [Exception] resolve, the clauses end by
    raising: either the exception they were given, after at most one error
    line, or a new exception that has it as context, with no line. *)
Lemma dispatch_connect_handlers g e w :
  ∃ e' lines,
    dispatch e (connect_handlers g) w =
      (inl e', mkWorld (environ w) (dotenv_file w) (warning_filters w)
                       (sys_modules w) (network w)
                       (trace w ++ (EvLog ERROR <$> lines)))
    ∧ ((e' = e ∧ (lines = [] ∨ lines = [vendor_error_line e]
                  ∨ lines = [unexpected_error_line e]))
       ∨ (exc_context e' = Some e ∧ lines = [])).
Proof.
  assert (Hw : ∀ w0 : World,
             w0 = mkWorld (environ w0) (dotenv_file w0) (warning_filters w0)
                          (sys_modules w0) (network w0) (trace w0 ++ []))
    by (intros []; cbn; by rewrite app_nil_r).
  unfold connect_handlers, dispatch, bind, during_handling, load_global,
    load_attr, logging_error, modify, raise, ret.
  change (ns_lookup builtins "tweepy") with (@None PyObj).
  change (ns_lookup builtins "Exception") with (Some (ObjClass Exception)).
  destruct (ns_lookup g "tweepy") as [[c|m attrs|]|];
    [| destruct (ns_lookup attrs "TweepyException") as [[c| |]|] | |];
    try (destruct (isinstance e c));
    try (exists e, [vendor_error_line e]; split;
           [reflexivity | left; split; [reflexivity | right; by left]]);
    try (eexists _, []; split;
           [cbn [set_context fmap list_fmap]; apply (f_equal (pair _)), Hw
           | right; split; reflexivity]);
    (destruct (ns_lookup g "Exception") as [[c'|m' attrs'|]|];
     try (destruct (isinstance e c'));
     try (destruct (isinstance e Exception));
     first
       [ exists e, [unexpected_error_line e]; split;
           [reflexivity | left; split; [reflexivity | by right; right]]
       | exists e, []; split;
           [apply (f_equal (pair _)), Hw | left; split; [reflexivity | by left]]
       | eexists _, []; split;
           [cbn [set_context fmap list_fmap]; apply (f_equal (pair _)), Hw
           | right; split; reflexivity] ]).
Qed.

(** X12. Whatever the globals of the module are when [connect] runs, a failure
    of the [try] body is never swallowed and no further request is made:
    [connect] raises the exception itself or one that has it as context,
    after writing at most one error line. *)
Theorem connect_in_never_swallows
    {ActionConfig : Type} (repr_str : string → string) (g : Namespace)
    (self : TweetAPIConnector ActionConfig) (oi : TweetInput)
    (w w1 : World) (e : PyExc) :
  connect_try repr_str self oi w = (inl e, w1) →
  ∃ e' (lines : list string),
    (connect_in repr_str g self oi w).1 = inl e'
    ∧ (e' = e ∨ exc_context e' = Some e)
    ∧ trace (connect_in repr_str g self oi w).2 =
        trace w1 ++ (EvLog ERROR <$> lines)
    ∧ (List.length lines ≤ 1)%nat.
Proof.
  intros Htry. unfold connect_in, try_except. rewrite Htry.
  destruct (dispatch_connect_handlers g e w1) as (e' & lines & -> & Hcases).
  exists e', lines. cbn [fst snd trace].
  destruct Hcases as [[-> [-> | [-> | ->]]] | [Hctx ->]];
    cbn [List.length]; auto.
Qed.

Lemma connect_in_never_swallows_witness :
  ∃ e' (lines : list string),
    (connect_in repr_plain globals_with_tweepy sample_connector hello
       (world_of env_full ∅ net_forbidden)).1 = inl e'
    ∧ (e' = Exc Forbidden "403 Forbidden" None
       ∨ exc_context e' = Some (Exc Forbidden "403 Forbidden" None))
    ∧ trace (connect_in repr_plain globals_with_tweepy sample_connector hello
               (world_of env_full ∅ net_forbidden)).2 =
        trace (world_at_call repr_plain sample_connector hello
                 (world_of env_full ∅ net_forbidden))
          ++ (EvLog ERROR <$> lines)
    ∧ (List.length lines ≤ 1)%nat.
Proof.
  apply (connect_in_never_swallows repr_plain globals_with_tweepy
           sample_connector hello (world_of env_full ∅ net_forbidden)).
  vm_compute. reflexivity.
Defined.
